(** * backend_app: the /chat relay of src/backend_app.py

    A shallow embedding of the Flask handler [chat] and of
    [get_gemini_response].  Python values are a small inductive type (the
    values [json.loads] can produce), exceptions are explicit results, the
    module-level bindings and the trace of outward effects (calls of print,
    calls of requests.post) are threaded through a state-and-exception monad
    in which an exception keeps the effects performed before it, as in
    Python. *)

From Stdlib Require Import ZArith List String Ascii Bool Lia.
From Stdlib Require Import Floats.PrimFloat.
Import ListNotations.
Local Open Scope string_scope.
Local Open Scope Z_scope.
Local Set Warnings "-register-all".

(** ** Python values *)

(** The values a JSON document decodes to.  A dict is kept as an association
    list in insertion order; [dict_get] reads the first binding of a key. *)
Inductive pyvalue : Type :=
| VNone
| VBool (b : bool)
| VInt (n : Z)
| VFloat (f : float)
| VStr (s : string)
| VList (l : list pyvalue)
| VDict (d : list (string * pyvalue)).

Fixpoint dict_get (k : string) (d : list (string * pyvalue)) : option pyvalue :=
  match d with
  | [] => None
  | (k', v) :: d' => if String.eqb k k' then Some v else dict_get k d'
  end.

(** [bool(v)]: None, False, zero, and the empty string, list and dict are
    falsy; every other value is truthy. *)
Definition truthy (v : pyvalue) : bool :=
  match v with
  | VNone => false
  | VBool b => b
  | VInt n => negb (n =? 0)
  | VFloat f => negb (PrimFloat.eqb f PrimFloat.zero)
  | VStr s => negb (String.eqb s EmptyString)
  | VList l => match l with [] => false | _ => true end
  | VDict d => match d with [] => false | _ => true end
  end.

(** ** Strings *)

(** A Python str is kept as the bytes of its UTF-8 encoding.  A str decoded
    from JSON can hold a lone surrogate (the escape \ud800 alone, say), which
    UTF-8 proper cannot encode; it is kept as the three bytes the
    surrogatepass handler writes, ED A0..BF 80..BF.  No other code point
    starts with ED followed by a byte from A0 up. *)
Fixpoint has_lone_surrogate (s : string) : bool :=
  match s with
  | String a (String b _ as s') =>
      ((N_of_ascii a =? 237)%N && (160 <=? N_of_ascii b)%N)
      || has_lone_surrogate s'
  | _ => false
  end.

(** Whether [str(v)] can be written to standard output, which is UTF-8.  The
    str of a str is itself; the str of any other value writes the strings
    inside it with repr, which escapes a lone surrogate. *)
Definition str_encodes (v : pyvalue) : bool :=
  match v with
  | VStr s => negb (has_lone_surrogate s)
  | _ => true
  end.

(** Whether [json.dumps(v, allow_nan=False)] encodes [v]: no float in it is
    NaN or an infinity. *)
Fixpoint json_encodable (v : pyvalue) : bool :=
  match v with
  | VFloat f => PrimFloat.is_finite f
  | VList l => forallb json_encodable l
  | VDict d => forallb (fun kv => json_encodable (snd kv)) d
  | _ => true
  end.

(** ** Exceptions *)

(** The exception classes that occur: those of [requests], of [json], of the
    Python operations used on the decoded reply, of print, and werkzeug's
    BadRequest.  [RequestsJSONDecodeError] is requests' own decode error, a
    subclass of both [RequestException] and [json.JSONDecodeError];
    [InvalidJSONError] is the RequestException [requests.post] raises for a
    payload it cannot encode. *)
Inductive exn_class : Type :=
| ConnectionError
| HTTPError
| Timeout
| RequestException
| RequestsJSONDecodeError
| JSONDecodeError
| KeyError
| IndexError
| TypeError
| AttributeError
| BadRequest
| OtherException
| InvalidJSONError
| UnicodeEncodeError
| RecursionError.

(** An exception: its class and [str(e)]. *)
Record exn : Type := Exn { exn_cls : exn_class; exn_str : string }.

(** [isinstance(e, requests.exceptions.RequestException)] *)
Definition is_RequestException (c : exn_class) : bool :=
  match c with
  | ConnectionError | HTTPError | Timeout | RequestException
  | RequestsJSONDecodeError | InvalidJSONError => true
  | _ => false
  end.

(** [isinstance(e, json.JSONDecodeError)] *)
Definition is_JSONDecodeError (c : exn_class) : bool :=
  match c with
  | JSONDecodeError | RequestsJSONDecodeError => true
  | _ => false
  end.

(** [isinstance(e, ValueError)] *)
Definition is_ValueError (c : exn_class) : bool :=
  match c with
  | JSONDecodeError | RequestsJSONDecodeError | UnicodeEncodeError => true
  | _ => false
  end.

(** The result of evaluating an expression or running a statement. *)
Inductive outcome (A : Type) : Type :=
| Ok (a : A)
| Raise (e : exn).
Arguments Ok {A} a.
Arguments Raise {A} e.

(** ** Python operations on values *)

Definition type_name (v : pyvalue) : string :=
  match v with
  | VNone => "NoneType"
  | VBool _ => "bool"
  | VInt _ => "int"
  | VFloat _ => "float"
  | VStr _ => "str"
  | VList _ => "list"
  | VDict _ => "dict"
  end.

(** [needle in s] on strings: [needle] occurs as a substring. *)
Fixpoint str_contains (needle s : string) : bool :=
  if String.prefix needle s then true
  else match s with
       | EmptyString => false
       | String _ s' => str_contains needle s'
       end.

Definition is_str (k : string) (v : pyvalue) : bool :=
  match v with
  | VStr s => String.eqb k s
  | _ => false
  end.

(** [k in v] for a string [k]: a key of a dict, an element of a list, a
    substring of a string; a TypeError on values that are not containers. *)
Definition py_in (k : string) (v : pyvalue) : outcome bool :=
  match v with
  | VDict d => Ok (match dict_get k d with Some _ => true | None => false end)
  | VList l => Ok (existsb (is_str k) l)
  | VStr s => Ok (str_contains k s)
  | _ => Raise (Exn TypeError
                  ("argument of type '" ++ type_name v ++ "' is not iterable"))
  end.

(** [len(v)] *)
Definition py_len (v : pyvalue) : outcome Z :=
  match v with
  | VDict d => Ok (Z.of_nat (List.length d))
  | VList l => Ok (Z.of_nat (List.length l))
  | VStr s => Ok (Z.of_nat (String.length s))
  | _ => Raise (Exn TypeError
                  ("object of type '" ++ type_name v ++ "' has no len()"))
  end.

(** [v[k]] for a string [k] *)
Definition getitem_str (v : pyvalue) (k : string) : outcome pyvalue :=
  match v with
  | VDict d =>
      match dict_get k d with
      | Some x => Ok x
      | None => Raise (Exn KeyError ("'" ++ k ++ "'"))
      end
  | VList _ =>
      Raise (Exn TypeError "list indices must be integers or slices, not str")
  | VStr _ => Raise (Exn TypeError "string indices must be integers, not 'str'")
  | _ => Raise (Exn TypeError
                  ("'" ++ type_name v ++ "' object is not subscriptable"))
  end.

(** [v[0]].  The keys of a decoded JSON object are strings, so [0] is never a
    key of a dict. *)
Definition getitem_0 (v : pyvalue) : outcome pyvalue :=
  match v with
  | VList l =>
      match l with
      | x :: _ => Ok x
      | [] => Raise (Exn IndexError "list index out of range")
      end
  | VStr s =>
      match s with
      | String c _ => Ok (VStr (String c EmptyString))
      | EmptyString => Raise (Exn IndexError "string index out of range")
      end
  | VDict _ => Raise (Exn KeyError "0")
  | _ => Raise (Exn TypeError
                  ("'" ++ type_name v ++ "' object is not subscriptable"))
  end.

(** [v.get(k)]: only a dict has the method. *)
Definition py_get (v : pyvalue) (k : string) : outcome pyvalue :=
  match v with
  | VDict d =>
      match dict_get k d with
      | Some x => Ok x
      | None => Ok VNone
      end
  | _ => Raise (Exn AttributeError
                  ("'" ++ type_name v ++ "' object has no attribute 'get'"))
  end.

(** ** The world outside the process *)

(** What one call of print writes, one item per call (the text of a call
    may run over several lines).  [Text s] is a literal of the program, alone
    or followed by the text of an exception.  [TextValue s v] is [s] followed
    by [json.dumps(v, indent=2)], which is ASCII.  [TextStr s v] is the
    f-string of [s] followed by [str(v)]. *)
Inductive printed : Type :=
| Text (s : string)
| TextValue (s : string) (v : pyvalue)
| TextStr (s : string) (v : pyvalue).

(** Whether standard output can encode what a call writes.  The texts of the
    exceptions printed are those of requests, json and the operations on
    values, which hold no lone surrogate. *)
Definition stdout_encodes (l : printed) : bool :=
  match l with
  | TextStr _ v => str_encodes v
  | _ => true
  end.

(** The arguments of one [requests.post(url, headers=, params=, json=)]. *)
Record http_call : Type := HttpCall {
  call_url : string;
  call_headers : list (string * string);
  call_params : list (string * string);
  call_json : pyvalue
}.

(** What the handler sees of a [requests.Response]: the status code, the
    message [raise_for_status] builds for an error status, and what
    [.json()] gives. *)
Record http_response : Type := HttpResponse {
  status_code : Z;
  http_error_msg : string;
  json : outcome pyvalue
}.

(** The effects: a call of print that wrote its text, a call of
    [requests.post]. *)
Inductive event : Type :=
| EvPrint (line : printed)
| EvPost (c : http_call).

(** The flask application object: its registered routes. *)
Record flask_app : Type := FlaskApp {
  url_map : list (string * list string)
}.

(** The module-level bindings of backend_app.py. *)
Record globals : Type := Globals {
  app : flask_app;
  GEMINI_API_KEY : option string;
  GEMINI_API_URL : string
}.

(** The bindings after the module body has run in an environment [getenv]. *)
Definition module_globals (getenv : string -> option string) : globals :=
  {| app := {| url_map := [("/chat", ["POST"])] |};
     GEMINI_API_KEY := getenv "GEMINI_API_KEY";
     GEMINI_API_URL :=
       "https://generativelanguage.googleapis.com/v1beta/models/gemini-2.0-flash:generateContent" |}.

(** ** The monad of statements *)

Record store : Type := Store {
  st_globals : globals;
  st_trace : list event
}.

Definition M (A : Type) : Type := store -> outcome A * store.

Definition ret {A} (a : A) : M A := fun s => (Ok a, s).

Definition bind {A B} (m : M A) (k : A -> M B) : M B :=
  fun s =>
    match m s with
    | (Ok a, s') => k a s'
    | (Raise e, s') => (Raise e, s')
    end.

Definition raise {A} (e : exn) : M A := fun s => (Raise e, s).

(** An expression: its value, or its exception, without other effects. *)
Definition eval {A} (o : outcome A) : M A := fun s => (o, s).

(** [try: body except ...: handler]: the effects of [body] up to the
    exception are kept. *)
Definition try_except {A} (body : M A) (handler : exn -> M A) : M A :=
  fun s =>
    match body s with
    | (Ok a, s') => (Ok a, s')
    | (Raise e, s') => handler e s'
    end.

Definition read_global {A} (f : globals -> A) : M A :=
  fun s => (Ok (f (st_globals s)), s).

Definition emit (ev : event) : M unit :=
  fun s => (Ok tt, {| st_globals := st_globals s;
                      st_trace := st_trace s ++ [ev] |}).

(** [print(...)]: the text is written, or UnicodeEncodeError is raised when
    standard output cannot encode it. *)
Definition print (l : printed) : M unit :=
  if stdout_encodes l then emit (EvPrint l)
  else raise (Exn UnicodeEncodeError
                "'utf-8' codec can't encode character: surrogates not allowed").

Declare Scope py_scope.
Delimit Scope py_scope with py.
Notation "x <- c ;; k" := (bind c (fun x => k))
  (at level 61, c at next level, right associativity) : py_scope.
Notation "c ;;; k" := (bind c (fun _ => k))
  (at level 61, right associativity) : py_scope.

(** Expressions compose in [outcome]. *)
Definition obind {A B} (o : outcome A) (k : A -> outcome B) : outcome B :=
  match o with
  | Ok a => k a
  | Raise e => Raise e
  end.

(** [a and b] in a condition: [b] is evaluated only when [a] is true. *)
Definition and_then (a b : outcome bool) : outcome bool :=
  obind a (fun x => if x then b else Ok false).

Infix "&&&" := and_then (at level 40, left associativity) : py_scope.

(** ** The program *)

(** The status codes for which [raise_for_status] raises: 4xx and 5xx. *)
Definition error_status (r : http_response) : bool :=
  (400 <=? status_code r) && (status_code r <? 600).

Section Relay.

(** What [requests.post] does with a call: the response it returns, or the
    exception it raises, be it on the way to the vendor or, for a payload
    that is not [json_encodable], before anything is sent. *)
Variable vendor : http_call -> outcome http_response.

Local Open Scope py_scope.

(** [requests.post(url, headers=..., params=..., json=...)] *)
Definition requests_post (url : string) (headers params : list (string * string))
    (payload : pyvalue) : M http_response :=
  let c := HttpCall url headers params payload in
  emit (EvPost c) ;;; eval (vendor c).

(** [response.raise_for_status()]: an HTTPError for a 4xx or 5xx status. *)
Definition raise_for_status (r : http_response) : M unit :=
  if error_status r
  then raise (Exn HTTPError (http_error_msg r))
  else ret tt.

(** The request body sent to the vendor (lines 44-51). *)
Definition payload (prompt : pyvalue) : pyvalue :=
  VDict [("contents",
          VList [VDict [("role", VStr "user");
                        ("parts", VList [VDict [("text", prompt)]])]])].

(** The condition of lines 62-64. *)
Definition has_text_path (result : pyvalue) : outcome bool :=
  Ok (truthy result)
  &&& py_in "candidates" result
  &&& obind (getitem_str result "candidates") (fun cs =>
      obind (py_len cs) (fun n => Ok (0 <? n)))
  &&& obind (getitem_str result "candidates") (fun cs =>
      obind (getitem_0 cs) (fun c => py_in "content" c))
  &&& obind (getitem_str result "candidates") (fun cs =>
      obind (getitem_0 cs) (fun c =>
      obind (getitem_str c "content") (fun ct => py_in "parts" ct)))
  &&& obind (getitem_str result "candidates") (fun cs =>
      obind (getitem_0 cs) (fun c =>
      obind (getitem_str c "content") (fun ct =>
      obind (getitem_str ct "parts") (fun ps =>
      obind (py_len ps) (fun n => Ok (0 <? n)))))).

(** The expression returned at line 65. *)
Definition first_text (result : pyvalue) : outcome pyvalue :=
  obind (getitem_str result "candidates") (fun cs =>
  obind (getitem_0 cs) (fun c =>
  obind (getitem_str c "content") (fun ct =>
  obind (getitem_str ct "parts") (fun ps =>
  obind (getitem_0 ps) (fun p => getitem_str p "text"))))).

Definition key_is_set (k : option string) : bool :=
  match k with
  | Some s => negb (String.eqb s EmptyString)
  | None => false
  end.

Definition msg_key_missing : string :=
  "Error: Backend configuration issue. Gemini API Key is missing.".
Definition msg_fallback : string :=
  "Sorry, I couldn't get a valid response from the AI. Please try again.".
Definition msg_connect : string :=
  "An error occurred while connecting to the AI service: ".
Definition msg_decode : string :=
  "An error occurred while processing the AI's response.".
Definition msg_unexpected : string :=
  "An unexpected error occurred: ".

(** The three [except] clauses of lines 70-78, tried in order.  Every class
    of [exn_class] derives from [Exception], so the last clause takes what
    the first two leave. *)
Definition handle (e : exn) : M pyvalue :=
  if is_RequestException (exn_cls e) then
    print (Text ("Error connecting to Gemini API: " ++ exn_str e)) ;;;
    ret (VStr (msg_connect ++ exn_str e))
  else if is_JSONDecodeError (exn_cls e) then
    print (Text "Error parsing Gemini API response.") ;;;
    ret (VStr msg_decode)
  else
    print (Text ("An unexpected error occurred in get_gemini_response: "
                 ++ exn_str e)) ;;;
    ret (VStr (msg_unexpected ++ exn_str e)).

Definition get_gemini_response (prompt : pyvalue) : M pyvalue :=
  key <- read_global GEMINI_API_KEY ;;
  if negb (key_is_set key) then
    print (Text "Error: Gemini API Key environment variable is not set on the server.") ;;;
    ret (VStr msg_key_missing)
  else
    let headers := [("Content-Type", "application/json")] in
    let params := [("key", match key with Some k => k | None => EmptyString end)] in
    let payload := payload prompt in
    try_except
      (url <- read_global GEMINI_API_URL ;;
       response <- requests_post url headers params payload ;;
       raise_for_status response ;;;
       result <- eval (json response) ;;
       ok <- eval (has_text_path result) ;;
       if ok then eval (first_text result)
       else
         print (TextValue "DEBUG: Unexpected API response structure: " result) ;;;
         ret (VStr msg_fallback))
      handle.

(** ** The endpoint *)

(** What flask's [request] gives the handler: whether the content type is
    JSON, the value [json.loads] decodes the body to ([None] when it raises),
    and what it raises then: a JSONDecodeError for a malformed body, a
    RecursionError for one nested too deep. *)
Record request : Type := Request {
  is_json : bool;
  decoded : option pyvalue;
  loads_error : exn
}.

(** [request.get_json()]: the decoded body; a ValueError of [json.loads] is
    turned into werkzeug's BadRequest, any other exception passes through. *)
Definition get_json (r : request) : outcome pyvalue :=
  match decoded r with
  | Some v => Ok v
  | None =>
      if is_ValueError (exn_cls (loads_error r))
      then Raise (Exn BadRequest
                    "400 Bad Request: The browser (or proxy) sent a request that this server could not understand.")
      else Raise (loads_error r)
  end.

(** The value a view returns: a status and a JSON body. *)
Record reply : Type := Reply {
  status : Z;
  body : pyvalue
}.

(** [jsonify(v)] answers 200; [jsonify(v), code] answers [code]. *)
Definition jsonify (v : pyvalue) : reply := {| status := 200; body := v |}.
Definition with_status (r : reply) (code : Z) : reply :=
  {| status := code; body := body r |}.

Definition chat (req : request) : M reply :=
  if negb (is_json req) then
    ret (with_status (jsonify (VDict [("error", VStr "Request must be JSON")])) 400)
  else
    data <- eval (get_json req) ;;
    user_message <- eval (py_get data "message") ;;
    if negb (truthy user_message) then
      ret (with_status
             (jsonify (VDict [("error", VStr "Missing 'message' in request body")]))
             400)
    else
      print (TextStr "Received message from frontend: " user_message) ;;;
      ai_response <- get_gemini_response user_message ;;
      print (TextStr "Sending response to frontend: " ai_response) ;;;
      ret (jsonify (VDict [("response", ai_response)])).

(** Serving one request from the module's bindings [g]: the handler's
    result, the bindings afterwards, and the effects in order. *)
Definition serve (g : globals) (req : request) : outcome reply * store :=
  chat req {| st_globals := g; st_trace := [] |}.

(** Calling [get_gemini_response] alone. *)
Definition run_get (g : globals) (prompt : pyvalue) : outcome pyvalue * store :=
  get_gemini_response prompt {| st_globals := g; st_trace := [] |}.

End Relay.

(** The outbound calls of a trace. *)
Fixpoint posts (t : list event) : list http_call :=
  match t with
  | [] => []
  | EvPost c :: t' => c :: posts t'
  | EvPrint _ :: t' => posts t'
  end.

(** * Vocabulary of the properties *)

Local Open Scope list_scope.

(** The store [s] after the further effects [evs]. *)
Definition after (s : store) (evs : list event) : store :=
  {| st_globals := st_globals s; st_trace := st_trace s ++ evs |}.

(** The string [handle] returns for an exception. *)
Definition handle_text (e : exn) : string :=
  if is_RequestException (exn_cls e) then (msg_connect ++ exn_str e)%string
  else if is_JSONDecodeError (exn_cls e) then msg_decode
  else (msg_unexpected ++ exn_str e)%string.

(** The one call [get_gemini_response] can issue for a prompt. *)
Definition vendor_call (g : globals) (prompt : pyvalue) : http_call :=
  {| call_url := GEMINI_API_URL g;
     call_headers := [("Content-Type", "application/json")];
     call_params :=
       [("key", match GEMINI_API_KEY g with Some k => k | None => EmptyString end)];
     call_json := payload prompt |}.

(** The ways the exchange with the vendor can go, for a call [c]. *)
Section Exchange.

Variable vendor : http_call -> outcome http_response.
Variable c : http_call.

(** The body of the [try] raises [e]: at the call, at the status check,
    at the decoding of the reply, or while the decoded reply is examined
    and unwrapped. *)
Inductive raised_in_try : exn -> Prop :=
| post_raises e :
    vendor c = Raise e -> raised_in_try e
| status_raises r :
    vendor c = Ok r -> error_status r = true ->
    raised_in_try (Exn HTTPError (http_error_msg r))
| json_raises r e :
    vendor c = Ok r -> error_status r = false -> json r = Raise e ->
    raised_in_try e
| path_raises r result e :
    vendor c = Ok r -> error_status r = false -> json r = Ok result ->
    has_text_path result = Raise e ->
    raised_in_try e
| text_raises r result e :
    vendor c = Ok r -> error_status r = false -> json r = Ok result ->
    has_text_path result = Ok true -> first_text result = Raise e ->
    raised_in_try e.

(** The reply decodes, and the condition of lines 62-64 is false. *)
Inductive unexpected_shape : pyvalue -> Prop :=
| shape_rejected r result :
    vendor c = Ok r -> error_status r = false -> json r = Ok result ->
    has_text_path result = Ok false ->
    unexpected_shape result.

(** The reply decodes, passes the condition, and unwraps to [t]. *)
Inductive unwraps_to : pyvalue -> Prop :=
| text_found r result t :
    vendor c = Ok r -> error_status r = false -> json r = Ok result ->
    has_text_path result = Ok true -> first_text result = Ok t ->
    unwraps_to t.

End Exchange.

(** The three replies of the handler. *)
Definition reply_not_json : reply :=
  {| status := 400; body := VDict [("error", VStr "Request must be JSON")] |}.

Definition reply_missing : reply :=
  {| status := 400;
     body := VDict [("error", VStr "Missing 'message' in request body")] |}.

Definition reply_ok (v : pyvalue) : reply :=
  {| status := 200; body := VDict [("response", v)] |}.

(** The message the handler forwards: the truthy ['message'] of a JSON
    object sent as JSON. *)
Definition message_of (req : request) : option pyvalue :=
  if is_json req then
    match decoded req with
    | Some (VDict d) =>
        match dict_get "message" d with
        | Some m => if truthy m then Some m else None
        | None => None
        end
    | _ => None
    end
  else None.

(** ** A sample exchange *)

Definition sample_globals : globals :=
  module_globals (fun _ => Some "secret").

(** What [json.loads] raises on a malformed body. *)
Definition malformed : exn := Exn JSONDecodeError "Expecting value".

Definition sample_request : request :=
  {| is_json := true; decoded := Some (VDict [("message", VStr "hello")]);
     loads_error := malformed |}.

Definition sample_result : pyvalue :=
  VDict [("candidates",
          VList [VDict [("content",
                         VDict [("parts", VList [VDict [("text", VStr "hi there")]])])]])].

(** A vendor that answers every call with [sample_result]. *)
Definition sample_vendor : http_call -> outcome http_response :=
  fun _ => Ok {| status_code := 200; http_error_msg := "OK";
                 json := Ok sample_result |}.

(** A vendor that answers with [sample_result] at the module's URL only. *)
Definition picky_vendor : http_call -> outcome http_response :=
  fun c =>
    if String.eqb (call_url c) (GEMINI_API_URL sample_globals)
    then Ok {| status_code := 200; http_error_msg := "OK";
               json := Ok sample_result |}
    else Raise (Exn ConnectionError "unknown host").

(** A vendor that cannot be reached. *)
Definition unreachable_vendor : http_call -> outcome http_response :=
  fun _ => Raise (Exn ConnectionError "refused").

(** ** Vocabulary of the further properties *)

(** What [handle] prints for an exception. *)
Definition handle_line (e : exn) : printed :=
  if is_RequestException (exn_cls e)
  then Text ("Error connecting to Gemini API: " ++ exn_str e)%string
  else if is_JSONDecodeError (exn_cls e)
  then Text "Error parsing Gemini API response."
  else Text ("An unexpected error occurred in get_gemini_response: "
             ++ exn_str e)%string.

(** What a trace holds of print: one text for each call. *)
Fixpoint prints (t : list event) : list printed :=
  match t with
  | [] => []
  | EvPrint l :: t' => l :: prints t'
  | EvPost _ :: t' => prints t'
  end.


(** What print raises when standard output cannot encode its text. *)
Definition unicode_error : exn :=
  Exn UnicodeEncodeError
    "'utf-8' codec can't encode character: surrogates not allowed".

(** The str the JSON string with the single escape \ud800 decodes to. *)
Definition lone_surrogate : string :=
  String (ascii_of_N 237) (String (ascii_of_N 160)
    (String (ascii_of_N 128) EmptyString)).

(** A vendor that answers 503 with [sample_result] as its body. *)
Definition unavailable_vendor : http_call -> outcome http_response :=
  fun _ => Ok {| status_code := 503;
                 http_error_msg := "503 Server Error: Service Unavailable";
                 json := Ok sample_result |}.

(** The two calls of print in [chat], around the relay. *)
Definition received (m : pyvalue) : event :=
  EvPrint (TextStr "Received message from frontend: " m).
Definition sending (v : pyvalue) : event :=
  EvPrint (TextStr "Sending response to frontend: " v).

(** * Properties *)

(** ** Stores and traces *)


Lemma after_after s l1 l2 : after (after s l1) l2 = after s (l1 ++ l2).
Proof. unfold after; cbn. now rewrite app_assoc. Qed.

Lemma after_globals s l : st_globals (after s l) = st_globals s.
Proof. reflexivity. Qed.

Lemma posts_app t1 t2 : posts (t1 ++ t2) = posts t1 ++ posts t2.
Proof.
  induction t1 as [| [l | c] t1 IH]; cbn; [reflexivity | assumption |].
  now rewrite IH.
Qed.

Lemma ok_fst_inj {A} (a b : A) (s s' : store) :
  (Ok a, s) = (Ok b, s') -> a = b.
Proof. intros H. now inversion H. Qed.

(** ** The three [except] clauses *)


Lemma handle_returns (e : exn) (s : store) :
  exists l, handle e s = (Ok (VStr (handle_text e)), after s [EvPrint l]).
Proof.
  unfold handle, handle_text.
  destruct (is_RequestException (exn_cls e));
    [| destruct (is_JSONDecodeError (exn_cls e)) ];
    eexists; reflexivity.
Qed.

Lemma handle_text_cases (e : exn) :
  handle_text e = (msg_connect ++ exn_str e)%string
  \/ handle_text e = msg_decode
  \/ handle_text e = (msg_unexpected ++ exn_str e)%string.
Proof.
  unfold handle_text.
  destruct (is_RequestException (exn_cls e)); [tauto |].
  destruct (is_JSONDecodeError (exn_cls e)); tauto.
Qed.

(** ** The exchange with the vendor *)


Section ExchangeCases.

Variable vendor : http_call -> outcome http_response.
Variable c : http_call.

Lemma exchange_cases :
  (exists e, raised_in_try vendor c e)
  \/ (exists result, unexpected_shape vendor c result)
  \/ (exists t, unwraps_to vendor c t).
Proof.
  destruct (vendor c) as [r | e] eqn:Hv; [| left; eauto using raised_in_try].
  destruct (error_status r) eqn:Hs; [left; eauto using raised_in_try |].
  destruct (json r) as [result | e] eqn:Hj; [| left; eauto using raised_in_try].
  destruct (has_text_path result) as [[|] | e] eqn:Hp.
  - destruct (first_text result) as [t | e] eqn:Ht.
    + right; right; eauto using unwraps_to.
    + left; eauto using raised_in_try.
  - right; left; eauto using unexpected_shape.
  - left; eauto using raised_in_try.
Qed.

End ExchangeCases.

(** ** [get_gemini_response], case by case *)

Section GetGeminiResponse.

Variable vendor : http_call -> outcome http_response.
Variable prompt : pyvalue.
Variable s : store.

Let c := vendor_call (st_globals s) prompt.

Lemma get_key_missing :
  key_is_set (GEMINI_API_KEY (st_globals s)) = false ->
  get_gemini_response vendor prompt s =
    (Ok (VStr msg_key_missing),
     after s [EvPrint (Text "Error: Gemini API Key environment variable is not set on the server.")]).
Proof.
  intros Hk. unfold get_gemini_response, bind, read_global.
  rewrite Hk. reflexivity.
Qed.

(** With the key set, the call is issued and the rest follows the
    vendor's side. *)
Lemma get_key_set :
  key_is_set (GEMINI_API_KEY (st_globals s)) = true ->
  get_gemini_response vendor prompt s =
    match vendor c with
    | Raise e => handle e (after s [EvPost c])
    | Ok r =>
        if error_status r
        then handle (Exn HTTPError (http_error_msg r)) (after s [EvPost c])
        else
          match json r with
          | Raise e => handle e (after s [EvPost c])
          | Ok result =>
              match has_text_path result with
              | Raise e => handle e (after s [EvPost c])
              | Ok true =>
                  match first_text result with
                  | Raise e => handle e (after s [EvPost c])
                  | Ok t => (Ok t, after s [EvPost c])
                  end
              | Ok false =>
                  (Ok (VStr msg_fallback),
                   after s
                     [EvPost c;
                      EvPrint (TextValue "DEBUG: Unexpected API response structure: " result)])
              end
          end
    end.
Proof.
  intros Hk. unfold get_gemini_response, bind, read_global.
  rewrite Hk. cbn [negb].
  unfold try_except, requests_post, bind, emit, eval, raise_for_status,
    raise, ret.
  fold (vendor_call (st_globals s) prompt). fold c. fold (after s [EvPost c]).
  destruct (vendor c) as [r | e]; [| reflexivity].
  fold (error_status r).
  destruct (error_status r); [reflexivity |].
  destruct (json r) as [result | e]; [| reflexivity].
  destruct (has_text_path result) as [[|] | e]; try reflexivity.
  unfold after; cbn. now rewrite <- app_assoc.
Qed.

Hypothesis key_set : key_is_set (GEMINI_API_KEY (st_globals s)) = true.

Lemma get_raised e :
  raised_in_try vendor c e ->
  exists l,
    get_gemini_response vendor prompt s =
      (Ok (VStr (handle_text e)), after s [EvPost c; EvPrint l]).
Proof.
  intros H. rewrite (get_key_set key_set).
  destruct (handle_returns e (after s [EvPost c])) as [l Hl].
  rewrite after_after in Hl. exists l.
  destruct H as [e Hv | r Hv Hs | r e Hv Hs Hj | r result e Hv Hs Hj Hp
                | r result e Hv Hs Hj Hp Ht];
    rewrite Hv; try rewrite Hs; try rewrite Hj; try rewrite Hp;
    try rewrite Ht; exact Hl.
Qed.

Lemma get_unexpected_shape result :
  unexpected_shape vendor c result ->
  get_gemini_response vendor prompt s =
    (Ok (VStr msg_fallback),
     after s [EvPost c;
              EvPrint (TextValue "DEBUG: Unexpected API response structure: " result)]).
Proof.
  intros [r res Hv Hs Hj Hp]. rewrite (get_key_set key_set).
  now rewrite Hv, Hs, Hj, Hp.
Qed.

Lemma get_unwraps t :
  unwraps_to vendor c t ->
  get_gemini_response vendor prompt s = (Ok t, after s [EvPost c]).
Proof.
  intros [r res t' Hv Hs Hj Hp Ht]. rewrite (get_key_set key_set).
  now rewrite Hv, Hs, Hj, Hp, Ht.
Qed.

End GetGeminiResponse.

Arguments get_raised {vendor prompt s} key_set {e} _.
Arguments get_unexpected_shape {vendor prompt s} key_set {result} _.
Arguments get_unwraps {vendor prompt s} key_set {t} _.

(** [get_gemini_response] returns a value on every path; it issues
    [vendor_call] when the key is set and nothing otherwise. *)
Lemma get_total vendor prompt s :
  exists v evs,
    get_gemini_response vendor prompt s = (Ok v, after s evs)
    /\ posts evs =
         if key_is_set (GEMINI_API_KEY (st_globals s))
         then [vendor_call (st_globals s) prompt] else [].
Proof.
  destruct (key_is_set (GEMINI_API_KEY (st_globals s))) eqn:Hk.
  - destruct (exchange_cases vendor (vendor_call (st_globals s) prompt))
      as [[e H] | [[result H] | [t H]]].
    + destruct (get_raised Hk H) as [l Hl]. rewrite Hl. eauto.
    + rewrite (get_unexpected_shape Hk H). eauto.
    + rewrite (get_unwraps Hk H). eauto.
  - rewrite (get_key_missing vendor prompt s Hk). eauto.
Qed.

(** Only the reply to [vendor_call] matters. *)
Lemma get_ext vendor vendor' prompt s :
  (key_is_set (GEMINI_API_KEY (st_globals s)) = true ->
   vendor (vendor_call (st_globals s) prompt)
   = vendor' (vendor_call (st_globals s) prompt)) ->
  get_gemini_response vendor prompt s = get_gemini_response vendor' prompt s.
Proof.
  intros H. destruct (key_is_set (GEMINI_API_KEY (st_globals s))) eqn:Hk.
  - rewrite !(get_key_set _ _ _ Hk), (H eq_refl). reflexivity.
  - now rewrite !(get_key_missing _ _ _ Hk).
Qed.

Lemma handle_eq (e : exn) (s : store) :
  handle e s = (Ok (VStr (handle_text e)), after s [EvPrint (handle_line e)]).
Proof.
  unfold handle, handle_text, handle_line.
  destruct (is_RequestException (exn_cls e));
    [| destruct (is_JSONDecodeError (exn_cls e)) ]; reflexivity.
Qed.

Lemma prints_app t1 t2 : prints (t1 ++ t2) = prints t1 ++ prints t2.
Proof.
  induction t1 as [| [l | c] t1 IH]; cbn; [reflexivity | | assumption].
  now rewrite IH.
Qed.

(** A run from any store is the run from the empty trace, appended. *)
Lemma get_shift vendor prompt s :
  get_gemini_response vendor prompt s =
    (fst (run_get vendor (st_globals s) prompt),
     after s (st_trace (snd (run_get vendor (st_globals s) prompt)))).
Proof.
  unfold run_get.
  destruct (key_is_set (GEMINI_API_KEY (st_globals s))) eqn:Hk.
  - rewrite (get_key_set vendor prompt s Hk).
    rewrite (get_key_set vendor prompt (Store (st_globals s) []) Hk).
    cbn [st_globals].
    destruct (vendor (vendor_call (st_globals s) prompt)) as [r | e];
      [| rewrite !handle_eq, !after_after; reflexivity].
    destruct (error_status r);
      [rewrite !handle_eq, !after_after; reflexivity |].
    destruct (json r) as [result | e];
      [| rewrite !handle_eq, !after_after; reflexivity].
    destruct (has_text_path result) as [[|] | e];
      [| reflexivity | rewrite !handle_eq, !after_after; reflexivity].
    destruct (first_text result) as [t | e];
      [reflexivity | rewrite !handle_eq, !after_after; reflexivity].
  - rewrite (get_key_missing vendor prompt s Hk).
    rewrite (get_key_missing vendor prompt (Store (st_globals s) []) Hk).
    reflexivity.
Qed.


(** ** [chat], case by case *)

Section Chat.

Variable vendor : http_call -> outcome http_response.
Variable req : request.
Variable s : store.

Lemma chat_not_json :
  is_json req = false -> chat vendor req s = (Ok reply_not_json, s).
Proof. intros H. unfold chat. now rewrite H. Qed.

(** When [json.loads] raises, so does the handler: a BadRequest for a
    ValueError, the exception itself otherwise. *)
Lemma chat_undecodable :
  is_json req = true -> decoded req = None ->
  exists e,
    chat vendor req s = (Raise e, s)
    /\ (is_ValueError (exn_cls (loads_error req)) = true ->
        exn_cls e = BadRequest)
    /\ (is_ValueError (exn_cls (loads_error req)) = false ->
        e = loads_error req).
Proof.
  intros Hj Hd. unfold chat, bind, eval, get_json. rewrite Hj, Hd. cbn [negb].
  destruct (is_ValueError (exn_cls (loads_error req)));
    eexists; (split; [reflexivity |]); split; intros H;
    try discriminate H; reflexivity.
Qed.

Lemma chat_not_object v :
  is_json req = true -> decoded req = Some v ->
  (forall d, v <> VDict d) ->
  chat vendor req s =
    (Raise (Exn AttributeError
              ("'" ++ type_name v ++ "' object has no attribute 'get'")), s).
Proof.
  intros Hj Hd Hv. unfold chat, bind, eval, get_json. rewrite Hj, Hd.
  destruct v; try reflexivity. now destruct (Hv d).
Qed.

Lemma chat_no_message d :
  is_json req = true -> decoded req = Some (VDict d) ->
  dict_get "message" d = None ->
  chat vendor req s = (Ok reply_missing, s).
Proof.
  intros Hj Hd Hm. unfold chat, bind, eval, get_json, py_get.
  now rewrite Hj, Hd, Hm.
Qed.

Lemma chat_falsy_message d m :
  is_json req = true -> decoded req = Some (VDict d) ->
  dict_get "message" d = Some m -> truthy m = false ->
  chat vendor req s = (Ok reply_missing, s).
Proof.
  intros Hj Hd Hm Ht. unfold chat, bind, eval, get_json, py_get.
  now rewrite Hj, Hd, Hm, Ht.
Qed.

(** The run on a forwarded message, in terms of the run of
    [get_gemini_response] alone: each of the two prints either writes its
    text or ends the run with UnicodeEncodeError. *)
Lemma chat_forwarded m :
  message_of req = Some m ->
  chat vendor req s =
    if str_encodes m then
      match fst (run_get vendor (st_globals s) m) with
      | Ok v =>
          if str_encodes v then
            (Ok (reply_ok v),
             after s (received m
                      :: st_trace (snd (run_get vendor (st_globals s) m))
                      ++ [sending v]))
          else
            (Raise unicode_error,
             after s (received m
                      :: st_trace (snd (run_get vendor (st_globals s) m))))
      | Raise e =>
          (Raise e,
           after s (received m
                    :: st_trace (snd (run_get vendor (st_globals s) m))))
      end
    else (Raise unicode_error, s).
Proof.
  unfold message_of. intros Hm.
  destruct (is_json req) eqn:Hj; [| discriminate Hm].
  destruct (decoded req) as [[| | | | | | d] |] eqn:Hd; try discriminate Hm.
  destruct (dict_get "message" d) as [m' |] eqn:Hg; [| discriminate Hm].
  destruct (truthy m') eqn:Ht; [| discriminate Hm].
  injection Hm as ->.
  unfold chat, bind, eval, get_json, py_get, print.
  rewrite Hj, Hd, Hg, Ht. cbn [negb stdout_encodes].
  destruct (str_encodes m); [| reflexivity].
  unfold emit. fold (received m). fold (after s [received m]).
  rewrite get_shift, after_after. cbn [st_globals after app].
  destruct (fst (run_get vendor (st_globals s) m)) as [v | e]; [| reflexivity].
  cbn [stdout_encodes]. destruct (str_encodes v); [| reflexivity].
  unfold raise, ret, jsonify, reply_ok, sending, after. cbn.
  now rewrite <- app_assoc.
Qed.

(** A request that is not forwarded leaves the store as it was. *)
Lemma chat_unforwarded :
  message_of req = None -> snd (chat vendor req s) = s.
Proof.
  unfold message_of. intros Hm.
  destruct (is_json req) eqn:Hj; [| now rewrite (chat_not_json Hj)].
  destruct (decoded req) as [v |] eqn:Hd.
  2:{ now destruct (chat_undecodable Hj Hd) as (e & -> & _). }
  destruct v; try (now rewrite (chat_not_object _ Hj Hd) by discriminate).
  destruct (dict_get "message" d) as [m |] eqn:Hg;
    [| now rewrite (chat_no_message d Hj Hd Hg)].
  destruct (truthy m) eqn:Ht; [discriminate Hm |].
  now rewrite (chat_falsy_message d m Hj Hd Hg Ht).
Qed.

(** The calls of [requests.post] of one run of the handler. *)
Lemma chat_posts :
  posts (st_trace (snd (chat vendor req s))) =
    posts (st_trace s)
    ++ match message_of req with
       | Some m =>
           if str_encodes m && key_is_set (GEMINI_API_KEY (st_globals s))
           then [vendor_call (st_globals s) m] else []
       | None => []
       end.
Proof.
  destruct (message_of req) as [m |] eqn:Hm;
    [| rewrite (chat_unforwarded Hm); now rewrite app_nil_r].
  rewrite (chat_forwarded m Hm).
  destruct (str_encodes m); [| cbn; now rewrite app_nil_r]. cbn [andb].
  unfold run_get.
  destruct (get_total vendor m (Store (st_globals s) [])) as (v & evs & -> & Hp).
  cbn [fst snd st_globals after st_trace app] in *.
  destruct (str_encodes v); cbn [snd after st_trace];
    rewrite posts_app; f_equal; unfold received, sending; cbn [posts];
    rewrite ?posts_app; cbn [posts]; rewrite ?app_nil_r; exact Hp.
Qed.

Lemma chat_globals : st_globals (snd (chat vendor req s)) = st_globals s.
Proof.
  destruct (message_of req) as [m |] eqn:Hm;
    [| now rewrite (chat_unforwarded Hm)].
  rewrite (chat_forwarded m Hm).
  destruct (str_encodes m); [| reflexivity].
  destruct (fst (run_get vendor (st_globals s) m)); [| reflexivity].
  destruct (str_encodes _); reflexivity.
Qed.

End Chat.

Arguments chat_not_json {vendor req s} _.
Arguments chat_undecodable {vendor req s} _ _.
Arguments chat_not_object {vendor req s v} _ _ _.
Arguments chat_no_message {vendor req s} d _ _ _.
Arguments chat_falsy_message {vendor req s} d {m} _ _ _ _.

(** A request that is not forwarded is handled without the vendor. *)
Lemma chat_unforwarded_ext vendor vendor' req s :
  message_of req = None -> chat vendor req s = chat vendor' req s.
Proof.
  unfold message_of, chat, bind, eval, get_json, py_get. intros Hm.
  destruct (is_json req); [| reflexivity]. cbn [negb].
  destruct (decoded req) as [v |];
    [| destruct (is_ValueError (exn_cls (loads_error req))); reflexivity].
  destruct v; try reflexivity.
  destruct (dict_get "message" d) as [m |]; [| reflexivity].
  destruct (truthy m); [discriminate Hm | reflexivity].
Qed.

(** The value the handler forwards is truthy and comes from an object sent
    as JSON. *)
Lemma message_of_some req d m :
  is_json req = true -> decoded req = Some (VDict d) ->
  dict_get "message" d = Some m -> truthy m = true ->
  message_of req = Some m.
Proof. intros Hj Hd Hm Ht. unfold message_of. now rewrite Hj, Hd, Hm, Ht. Qed.

(** The calls of [requests.post] of serving one request. *)
Lemma serve_posts vendor g req :
  posts (st_trace (snd (serve vendor g req))) =
    match message_of req with
    | Some m =>
        if str_encodes m && key_is_set (GEMINI_API_KEY g)
        then [vendor_call g m] else []
    | None => []
    end.
Proof. unfold serve. now rewrite chat_posts. Qed.

(** Serving a forwarded message. *)
Lemma serve_forwarded vendor g req m :
  message_of req = Some m ->
  serve vendor g req =
    if str_encodes m then
      match fst (run_get vendor g m) with
      | Ok v =>
          if str_encodes v then
            (Ok (reply_ok v),
             {| st_globals := g;
                st_trace :=
                  received m :: st_trace (snd (run_get vendor g m))
                  ++ [sending v] |})
          else
            (Raise unicode_error,
             {| st_globals := g;
                st_trace :=
                  received m :: st_trace (snd (run_get vendor g m)) |})
      | Raise e =>
          (Raise e,
           {| st_globals := g;
              st_trace := received m :: st_trace (snd (run_get vendor g m)) |})
      end
    else (Raise unicode_error, {| st_globals := g; st_trace := [] |}).
Proof.
  intros Hm. unfold serve. rewrite (chat_forwarded vendor req _ m Hm).
  reflexivity.
Qed.

(** ** The reply's shape *)

(** The shapes for which the condition of lines 62-64 is false: no
    ['candidates'] key, an empty ['candidates'] list, a first candidate
    without ['content'], a content without ['parts'], an empty ['parts']
    list. *)
Lemma has_text_path_rejects (d : list (string * pyvalue)) :
  (dict_get "candidates" d = None -> has_text_path (VDict d) = Ok false)
  /\ (dict_get "candidates" d = Some (VList []) ->
      has_text_path (VDict d) = Ok false)
  /\ (forall cd cs,
        dict_get "candidates" d = Some (VList (VDict cd :: cs)) ->
        dict_get "content" cd = None ->
        has_text_path (VDict d) = Ok false)
  /\ (forall cd cs ctd,
        dict_get "candidates" d = Some (VList (VDict cd :: cs)) ->
        dict_get "content" cd = Some (VDict ctd) ->
        dict_get "parts" ctd = None ->
        has_text_path (VDict d) = Ok false)
  /\ (forall cd cs ctd,
        dict_get "candidates" d = Some (VList (VDict cd :: cs)) ->
        dict_get "content" cd = Some (VDict ctd) ->
        dict_get "parts" ctd = Some (VList []) ->
        has_text_path (VDict d) = Ok false).
Proof.
  unfold has_text_path, and_then, obind, py_in, getitem_str, getitem_0, py_len.
  repeat split; intros;
    repeat match goal with
           | H : dict_get _ _ = _ |- _ => rewrite H; clear H
           end;
    cbn; destruct d; reflexivity.
Qed.

(** The shape the condition accepts and the unwrapping reads. *)
Lemma has_text_path_accepts d cd cs ctd pd ps t :
  dict_get "candidates" d = Some (VList (VDict cd :: cs)) ->
  dict_get "content" cd = Some (VDict ctd) ->
  dict_get "parts" ctd = Some (VList (VDict pd :: ps)) ->
  dict_get "text" pd = Some t ->
  has_text_path (VDict d) = Ok true /\ first_text (VDict d) = Ok t.
Proof.
  intros Hc Hct Hp Ht.
  unfold has_text_path, first_text, and_then, obind, py_in, getitem_str,
    getitem_0, py_len.
  rewrite Hc, Hct, Hp, Ht. cbn.
  destruct d; [discriminate Hc |].
  split; reflexivity.
Qed.

(** ** The claims *)

(** C1, as stated. The claim fails when the vendor answers with an error
    status: a 503 whose body is the expected JSON is reported as a
    connection error, and its text is not unwrapped. *)
Lemma first_text_needs_success_status :
  ~ (forall vendor g req d msg r rd cd cs ctd pd ps t,
       is_json req = true ->
       decoded req = Some (VDict d) ->
       dict_get "message" d = Some (VStr msg) ->
       msg <> EmptyString ->
       key_is_set (GEMINI_API_KEY g) = true ->
       vendor (vendor_call g (VStr msg)) = Ok r ->
       json r = Ok (VDict rd) ->
       dict_get "candidates" rd = Some (VList (VDict cd :: cs)) ->
       dict_get "content" cd = Some (VDict ctd) ->
       dict_get "parts" ctd = Some (VList (VDict pd :: ps)) ->
       dict_get "text" pd = Some t ->
       fst (serve vendor g req) =
         Ok {| status := 200; body := VDict [("response", t)] |}).
Proof.
  intros H.
  assert (K : fst (serve unavailable_vendor sample_globals sample_request) =
              Ok {| status := 200;
                    body := VDict [("response", VStr "hi there")] |}).
  { eapply H with (msg := "hello"); try reflexivity. discriminate. }
  vm_compute in K. discriminate K.
Qed.

(** C1 (amended). A JSON request carrying a non-empty 'message' string, with
    the key set and a vendor reply without a 4xx or 5xx status that decodes
    to an object whose 'candidates' list starts with an object whose
    'content'.'parts' list starts with an object with a 'text' field, is
    answered 200 with {"response": t}, where t is
    result["candidates"][0]["content"]["parts"][0]["text"], provided
    standard output can encode the message and t, which the handler
    prints. *)
Theorem chat_returns_first_text
    vendor g req d msg r rd cd cs ctd pd ps t :
  is_json req = true ->
  decoded req = Some (VDict d) ->
  dict_get "message" d = Some (VStr msg) ->
  msg <> EmptyString ->
  has_lone_surrogate msg = false ->
  key_is_set (GEMINI_API_KEY g) = true ->
  vendor (vendor_call g (VStr msg)) = Ok r ->
  error_status r = false ->
  json r = Ok (VDict rd) ->
  dict_get "candidates" rd = Some (VList (VDict cd :: cs)) ->
  dict_get "content" cd = Some (VDict ctd) ->
  dict_get "parts" ctd = Some (VList (VDict pd :: ps)) ->
  dict_get "text" pd = Some t ->
  str_encodes t = true ->
  first_text (VDict rd) = Ok t
  /\ fst (serve vendor g req) =
       Ok {| status := 200; body := VDict [("response", t)] |}.
Proof.
  intros Hj Hd Hm Hne Hsur Hk Hv Hs Hr Hc Hct Hp Ht Henc.
  destruct (has_text_path_accepts rd cd cs ctd pd ps t Hc Hct Hp Ht)
    as [Hpath Htext].
  split; [exact Htext |].
  assert (Htr : truthy (VStr msg) = true).
  { cbn. destruct (String.eqb_spec msg EmptyString); [contradiction | reflexivity]. }
  rewrite (serve_forwarded vendor g req (VStr msg)
             (message_of_some req d (VStr msg) Hj Hd Hm Htr)).
  cbn [str_encodes]. rewrite Hsur. cbn [negb].
  assert (Hu : unwraps_to vendor (vendor_call g (VStr msg)) t)
    by (eapply text_found; eassumption).
  unfold run_get. rewrite (get_unwraps (s := Store g []) Hk Hu).
  cbn [fst]. rewrite Henc. reflexivity.
Qed.

Lemma chat_returns_first_text_witness :
  fst (serve sample_vendor sample_globals sample_request) =
    Ok {| status := 200; body := VDict [("response", VStr "hi there")] |}.
Proof.
  refine (proj2 (chat_returns_first_text sample_vendor sample_globals
                   sample_request _ "hello" _ _ _ _ _ _ _ (VStr "hi there")
                   _ _ _ _ _ _ _ _ _ _ _ _ _ _));
    try reflexivity.
  discriminate.
Defined.

(** C2. On a JSON request whose body is the JSON array [[]], which has no
    'message' field, the handler raises AttributeError at [data.get] instead
    of answering 400; no outbound call is made. *)
Theorem chat_array_body_raises vendor g e :
  serve vendor g {| is_json := true; decoded := Some (VList []);
                    loads_error := e |} =
    (Raise (Exn AttributeError "'list' object has no attribute 'get'"),
     {| st_globals := g; st_trace := [] |}).
Proof. reflexivity. Qed.

(** The two rejections the handler does make. *)
Lemma chat_validates vendor g req :
  (is_json req = false ->
   serve vendor g req = (Ok reply_not_json, Store g []))
  /\ (forall d, is_json req = true -> decoded req = Some (VDict d) ->
      dict_get "message" d = None ->
      serve vendor g req = (Ok reply_missing, Store g [])).
Proof.
  split; intros; unfold serve.
  - now apply chat_not_json.
  - now apply (chat_no_message d).
Qed.

(** C3. With the key set, [get_gemini_response] on a prompt string [p]
    issues one POST, to GEMINI_API_URL, whose JSON payload is
    {"contents": [{"role": "user", "parts": [{"text": p}]}]}; the URL bound
    by the module is the fixed generateContent address. *)
Theorem get_gemini_response_posts_fixed_payload vendor g k (p : string) :
  GEMINI_API_KEY g = Some k ->
  k <> EmptyString ->
  posts (st_trace (snd (run_get vendor g (VStr p)))) =
    [ {| call_url := GEMINI_API_URL g;
         call_headers := [("Content-Type", "application/json")];
         call_params := [("key", k)];
         call_json :=
           VDict [("contents",
                   VList [VDict [("role", VStr "user");
                                 ("parts", VList [VDict [("text", VStr p)]])]])] |} ]
  /\ forall getenv,
       GEMINI_API_URL (module_globals getenv) =
         "https://generativelanguage.googleapis.com/v1beta/models/gemini-2.0-flash:generateContent".
Proof.
  intros Hk Hne. split; [| reflexivity].
  assert (Hset : key_is_set (GEMINI_API_KEY (st_globals (Store g []))) = true).
  { cbn. rewrite Hk. cbn.
    destruct (String.eqb_spec k EmptyString); [contradiction | reflexivity]. }
  unfold run_get.
  destruct (get_total vendor (VStr p) (Store g [])) as (v & evs & -> & Hp).
  rewrite Hset in Hp. unfold after. cbn [snd st_trace app].
  rewrite app_nil_l, Hp. unfold vendor_call. cbn [st_globals]. now rewrite Hk.
Qed.

Lemma get_gemini_response_posts_fixed_payload_witness :
  posts (st_trace (snd (run_get unreachable_vendor sample_globals (VStr "hello")))) =
    [ {| call_url :=
           "https://generativelanguage.googleapis.com/v1beta/models/gemini-2.0-flash:generateContent";
         call_headers := [("Content-Type", "application/json")];
         call_params := [("key", "secret")];
         call_json :=
           VDict [("contents",
                   VList [VDict [("role", VStr "user");
                                 ("parts", VList [VDict [("text", VStr "hello")]])]])] |} ].
Proof.
  refine (proj1 (get_gemini_response_posts_fixed_payload unreachable_vendor
                   sample_globals "secret" "hello" _ _)).
  - reflexivity.
  - discriminate.
Defined.

(** C4, as stated. The claim that every failure maps to one fixed string fails: the text
    returned when the vendor cannot be reached carries the exception's own
    text, so no single string serves all connection errors. *)
Lemma connect_failure_text_not_fixed :
  ~ (exists text : string,
       forall e : exn,
         is_RequestException (exn_cls e) = true ->
         fst (run_get (fun _ => Raise e)
                (module_globals (fun _ => Some "k")) (VStr "hi"))
         = Ok (VStr text)).
Proof.
  intros [text H].
  pose proof (H (Exn ConnectionError "refused") eq_refl) as H1.
  pose proof (H (Exn Timeout "timed out") eq_refl) as H2.
  cbv in H1, H2. rewrite <- H2 in H1. discriminate H1.
Qed.

(** Which string each except clause gives. *)
Lemma handle_text_tied (e : exn) :
  is_RequestException (exn_cls e) = true
  /\ handle_text e = (msg_connect ++ exn_str e)%string
  \/ is_RequestException (exn_cls e) = false
     /\ is_JSONDecodeError (exn_cls e) = true
     /\ handle_text e = msg_decode
  \/ is_RequestException (exn_cls e) = false
     /\ is_JSONDecodeError (exn_cls e) = false
     /\ handle_text e = (msg_unexpected ++ exn_str e)%string.
Proof.
  unfold handle_text.
  destruct (is_RequestException (exn_cls e)); [tauto |].
  destruct (is_JSONDecodeError (exn_cls e)); tauto.
Qed.

(** C4 (amended). For a request that is not JSON, or whose body is a JSON
    object, and whose message and response standard output can encode, the
    handler answers in one of these ways: 400 with the fixed "Request must be
    JSON" or "Missing 'message' in request body" error; or 200 with
    {"response": r}, where r is the fixed key-missing string when the key is
    not set, the fixed fallback string when the reply has an unexpected
    shape, the unwrapped text when there is one, and for an exception e
    raised in the try: the connection prefix followed by the text of e when
    e is a RequestException, the fixed decode string when e is a
    json.JSONDecodeError and not a RequestException, and the unexpected-error
    prefix followed by the text of e otherwise. *)
Theorem chat_outcomes vendor g req :
  (is_json req = false \/ exists d, decoded req = Some (VDict d)) ->
  (forall m, message_of req = Some m -> str_encodes m = true) ->
  (forall m v, message_of req = Some m ->
               fst (run_get vendor g m) = Ok v -> str_encodes v = true) ->
  fst (serve vendor g req) = Ok reply_not_json
  \/ fst (serve vendor g req) = Ok reply_missing
  \/ exists m r,
       message_of req = Some m
       /\ fst (serve vendor g req) = Ok (reply_ok r)
       /\ (key_is_set (GEMINI_API_KEY g) = false /\ r = VStr msg_key_missing
           \/ key_is_set (GEMINI_API_KEY g) = true
              /\ ((exists result,
                      unexpected_shape vendor (vendor_call g m) result
                      /\ r = VStr msg_fallback)
                  \/ (exists e,
                        raised_in_try vendor (vendor_call g m) e
                        /\ (is_RequestException (exn_cls e) = true
                            /\ r = VStr (msg_connect ++ exn_str e)
                            \/ is_RequestException (exn_cls e) = false
                               /\ is_JSONDecodeError (exn_cls e) = true
                               /\ r = VStr msg_decode
                            \/ is_RequestException (exn_cls e) = false
                               /\ is_JSONDecodeError (exn_cls e) = false
                               /\ r = VStr (msg_unexpected ++ exn_str e)))
                  \/ (exists t,
                        unwraps_to vendor (vendor_call g m) t /\ r = t))).
Proof.
  intros Hreq Hmsg Hres.
  destruct (message_of req) as [m |] eqn:Hm.
  - right; right.
    pose proof (serve_forwarded vendor g req m Hm) as Hs.
    rewrite (Hmsg m eq_refl) in Hs.
    unfold run_get in Hs, Hres.
    destruct (get_total vendor m (Store g [])) as (v & evs & Hg & _).
    rewrite Hg in Hs. cbn [fst] in Hs.
    rewrite (Hres m v eq_refl (f_equal fst Hg)) in Hs.
    exists m, v. split; [reflexivity |]. split; [now rewrite Hs |].
    destruct (key_is_set (GEMINI_API_KEY g)) eqn:Hk.
    + right; split; [reflexivity |].
      assert (Hk1 : key_is_set (GEMINI_API_KEY (st_globals (Store g []))) = true)
        by exact Hk.
      destruct (exchange_cases vendor (vendor_call g m))
        as [[e H] | [[result H] | [t H]]].
      * right; left. exists e. split; [exact H |].
        destruct (get_raised Hk1 H) as [l Hl].
        rewrite Hl in Hg. apply ok_fst_inj in Hg. subst v.
        destruct (handle_text_tied e) as [[H1 E] | [(H1 & H2 & E) | (H1 & H2 & E)]];
          rewrite E; auto 6.
      * left. exists result. split; [exact H |].
        rewrite (get_unexpected_shape Hk1 H) in Hg.
        now apply ok_fst_inj in Hg.
      * right; right. exists t. split; [exact H |].
        rewrite (get_unwraps Hk1 H) in Hg. now apply ok_fst_inj in Hg.
    + left; split; [reflexivity |].
      rewrite (get_key_missing vendor m (Store g []) Hk) in Hg.
      now apply ok_fst_inj in Hg.
  - unfold message_of in Hm. unfold serve.
    destruct (is_json req) eqn:Hj;
      [| left; now rewrite (chat_not_json Hj)].
    destruct Hreq as [Hf | [d Hd]]; [discriminate Hf |].
    rewrite Hd in Hm.
    destruct (dict_get "message" d) as [m |] eqn:Hg;
      [| right; left; now rewrite (chat_no_message d Hj Hd Hg)].
    destruct (truthy m) eqn:Ht; [discriminate Hm |].
    right; left. now rewrite (chat_falsy_message d Hj Hd Hg Ht).
Qed.

Lemma chat_outcomes_witness :
  fst (serve unreachable_vendor sample_globals sample_request) = Ok reply_not_json
  \/ fst (serve unreachable_vendor sample_globals sample_request) = Ok reply_missing
  \/ exists m r,
       message_of sample_request = Some m
       /\ fst (serve unreachable_vendor sample_globals sample_request)
          = Ok (reply_ok r).
Proof.
  destruct (chat_outcomes unreachable_vendor sample_globals sample_request)
    as [H | [H | (m & r & Hm & Hr & _)]].
  - right. exists [("message", VStr "hello")]. reflexivity.
  - intros m Hm. injection Hm as <-. reflexivity.
  - intros m v Hm Hv. injection Hm as <-. injection Hv as <-. reflexivity.
  - left; exact H.
  - right; left; exact H.
  - right; right. exists m, r. split; assumption.
Defined.

(** C5. With the key set, whenever the body of the try raises (at the call,
    at the status check for a 4xx or 5xx reply, at the decoding of the reply,
    or while the decoded reply is unwrapped), [get_gemini_response] returns
    an error string and does not raise. *)
Theorem get_gemini_response_catches vendor g prompt e :
  key_is_set (GEMINI_API_KEY g) = true ->
  raised_in_try vendor (vendor_call g prompt) e ->
  exists text,
    fst (run_get vendor g prompt) = Ok (VStr text)
    /\ (text = (msg_connect ++ exn_str e)%string
        \/ text = msg_decode
        \/ text = (msg_unexpected ++ exn_str e)%string).
Proof.
  intros Hk H. unfold run_get.
  destruct (get_raised (s := Store g []) Hk H) as [l ->].
  exists (handle_text e). split; [reflexivity | apply handle_text_cases].
Qed.

Lemma get_gemini_response_catches_witness :
  exists text,
    fst (run_get unreachable_vendor sample_globals (VStr "hello")) = Ok (VStr text)
    /\ (text = "An error occurred while connecting to the AI service: refused"
        \/ text = msg_decode
        \/ text = "An unexpected error occurred: refused").
Proof.
  refine (get_gemini_response_catches unreachable_vendor sample_globals
            (VStr "hello") (Exn ConnectionError "refused") _ _).
  - reflexivity.
  - apply post_raises. reflexivity.
Defined.

(** C6, as stated. The claim that every request leads to exactly one outbound call fails:
    a request that is not JSON is answered without any. *)
Lemma not_every_request_is_forwarded :
  ~ (forall vendor g req,
       List.length (posts (st_trace (snd (serve vendor g req)))) = 1%nat).
Proof.
  intros H.
  specialize (H unreachable_vendor sample_globals
                {| is_json := false; decoded := None;
                   loads_error := malformed |}).
  discriminate H.
Qed.

(** C6 (amended). Every request leads to at most one outbound call: none
    when the request is rejected (not JSON, no truthy 'message' in a JSON
    object) or the key is not set, and exactly the one call for its message
    when the request is JSON, its body is an object with a truthy 'message'
    that standard output and JSON can encode, and the key is set. *)
Theorem chat_posts_at_most_once vendor g req :
  (List.length (posts (st_trace (snd (serve vendor g req)))) <= 1)%nat
  /\ (message_of req = None \/ key_is_set (GEMINI_API_KEY g) = false ->
      posts (st_trace (snd (serve vendor g req))) = [])
  /\ (forall m,
        message_of req = Some m ->
        str_encodes m = true ->
        json_encodable m = true ->
        key_is_set (GEMINI_API_KEY g) = true ->
        posts (st_trace (snd (serve vendor g req))) = [vendor_call g m]).
Proof.
  rewrite serve_posts. repeat split.
  - destruct (message_of req); [destruct (_ && _) |]; cbn; lia.
  - intros [-> | Hk]; [reflexivity |].
    destruct (message_of req); [| reflexivity].
    rewrite Hk. now rewrite andb_false_r.
  - intros m -> Henc _ Hk. now rewrite Henc, Hk.
Qed.

Lemma chat_posts_at_most_once_witness :
  posts (st_trace (snd (serve sample_vendor sample_globals sample_request))) =
    [vendor_call sample_globals (VStr "hello")]
  /\ posts (st_trace (snd (serve sample_vendor (module_globals (fun _ => None))
                             sample_request))) = [].
Proof.
  split.
  - apply (proj2 (proj2 (chat_posts_at_most_once sample_vendor sample_globals
                           sample_request)));
      reflexivity.
  - apply (proj1 (proj2 (chat_posts_at_most_once sample_vendor
                           (module_globals (fun _ => None)) sample_request))).
    right. reflexivity.
Defined.

(** C7. Serving a request leaves the module's bindings as they were, and the
    result (reply and effects) is the same under any two vendors that give
    the same reply to the calls made. *)
Theorem chat_frame vendor g req :
  st_globals (snd (serve vendor g req)) = g
  /\ forall vendor',
       (forall c, In c (posts (st_trace (snd (serve vendor g req)))) ->
                  vendor c = vendor' c) ->
       serve vendor g req = serve vendor' g req.
Proof.
  split; [unfold serve; now rewrite chat_globals |].
  intros vendor' Hsame.
  rewrite serve_posts in Hsame.
  destruct (message_of req) as [m |] eqn:Hm;
    [| unfold serve; now apply chat_unforwarded_ext].
  rewrite !(serve_forwarded _ g req m Hm).
  destruct (str_encodes m); [| reflexivity].
  assert (E : run_get vendor g m = run_get vendor' g m).
  { unfold run_get. apply get_ext. cbn [st_globals]. intros Hk.
    rewrite Hk in Hsame. apply Hsame. now left. }
  now rewrite E.
Qed.

Lemma chat_frame_witness :
  st_globals (snd (serve sample_vendor sample_globals sample_request))
  = sample_globals
  /\ serve sample_vendor sample_globals sample_request
     = serve picky_vendor sample_globals sample_request.
Proof.
  destruct (chat_frame sample_vendor sample_globals sample_request) as [Hg Hv].
  split; [exact Hg |].
  apply Hv. intros c Hc. vm_compute in Hc.
  destruct Hc as [Hc | []]. rewrite <- Hc. reflexivity.
Defined.

(** C8. On a reply that decodes to
    {"candidates": [{"content": {"parts": [{}]}}]}, which lacks
    candidates[0].content.parts[0].text, [get_gemini_response] returns the
    unexpected-error string carrying the KeyError's text, not the fallback
    string. *)
Theorem missing_text_is_not_fallback (prompt : pyvalue) :
  let reply :=
    VDict [("candidates",
            VList [VDict [("content", VDict [("parts", VList [VDict []])])]])] in
  let vendor := fun _ : http_call =>
    Ok {| status_code := 200; http_error_msg := "OK"; json := Ok reply |} in
  let g := module_globals (fun _ => Some "k") in
  has_text_path reply = Ok true
  /\ first_text reply = Raise (Exn KeyError "'text'")
  /\ fst (run_get vendor g prompt)
     = Ok (VStr "An unexpected error occurred: 'text'")
  /\ fst (run_get vendor g prompt) <> Ok (VStr msg_fallback).
Proof.
  cbv zeta. repeat split; try reflexivity.
  change (Ok (VStr "An unexpected error occurred: 'text'")
          <> Ok (VStr msg_fallback)).
  discriminate.
Qed.

(** C9. Each of the empty string, 0, false, null, [] and {} is falsy; a JSON request whose
    body is an object with a falsy 'message' is answered 400 with the
    missing-message error, as a request whose object has no 'message' is, and
    no effect, in particular no outbound call, takes place. *)
Theorem chat_rejects_falsy_message vendor g req d m :
  is_json req = true ->
  decoded req = Some (VDict d) ->
  dict_get "message" d = Some m ->
  truthy m = false ->
  Forall (fun v => truthy v = false)
    [VStr EmptyString; VInt 0; VBool false; VNone; VList []; VDict []]
  /\ serve vendor g req =
       (Ok {| status := 400;
              body := VDict [("error", VStr "Missing 'message' in request body")] |},
        {| st_globals := g; st_trace := [] |})
  /\ posts (st_trace (snd (serve vendor g req))) = []
  /\ forall d' e',
       dict_get "message" d' = None ->
       serve vendor g {| is_json := true; decoded := Some (VDict d');
                         loads_error := e' |}
       = serve vendor g req.
Proof.
  intros Hj Hd Hm Ht.
  assert (E : serve vendor g req = (Ok reply_missing, Store g []))
    by (unfold serve; exact (chat_falsy_message d Hj Hd Hm Ht)).
  split; [repeat constructor |].
  split; [exact E |]. split; [now rewrite E |].
  intros d' e' Hd'. rewrite E. unfold serve.
  exact (chat_no_message (req := Request true (Some (VDict d')) e') d'
           eq_refl eq_refl Hd').
Qed.

Lemma chat_rejects_falsy_message_witness :
  serve sample_vendor sample_globals
    {| is_json := true; decoded := Some (VDict [("message", VInt 0)]);
       loads_error := malformed |} =
    (Ok {| status := 400;
           body := VDict [("error", VStr "Missing 'message' in request body")] |},
     {| st_globals := sample_globals; st_trace := [] |}).
Proof.
  refine (proj1 (proj2 (chat_rejects_falsy_message sample_vendor sample_globals
                          _ [("message", VInt 0)] (VInt 0) _ _ _ _)));
    reflexivity.
Defined.

(** C10. On a JSON request whose 'message' is the string with the single
    escape \ud800, a truthy value, the print of line 96 raises
    UnicodeEncodeError: the handler returns no reply, and nothing has been
    printed or posted. *)
Theorem chat_surrogate_message_raises vendor g e :
  truthy (VStr lone_surrogate) = true
  /\ serve vendor g
       {| is_json := true;
          decoded := Some (VDict [("message", VStr lone_surrogate)]);
          loads_error := e |} =
     (Raise (Exn UnicodeEncodeError
               "'utf-8' codec can't encode character: surrogates not allowed"),
      {| st_globals := g; st_trace := [] |}).
Proof. split; reflexivity. Qed.

(** The same at line 98, after the call: a reply whose text is that string
    is unwrapped and then fails to print. *)
Lemma chat_surrogate_reply_raises :
  fst (serve
         (fun _ => Ok {| status_code := 200; http_error_msg := "OK";
                         json := Ok (VDict [("candidates",
                                   VList [VDict [("content",
                                     VDict [("parts",
                                       VList [VDict [("text",
                                         VStr lone_surrogate)]])])]])]) |})
         sample_globals sample_request)
  = Raise unicode_error.
Proof. reflexivity. Qed.

(** * Further properties of the relay *)

(** ** The condition and the unwrapping *)

Ltac split_matches :=
  repeat match goal with
         | H : context [match ?x with _ => _ end] |- _ =>
             destruct x eqn:?; try discriminate H
         | |- context [match ?x with _ => _ end] =>
             destruct x eqn:?; try discriminate
         end.

(** X1. The unwrapping of line 65 succeeds exactly on a reply that is an
    object whose 'candidates' is a list starting with an object, whose
    'content' is an object, whose 'parts' is a list starting with an object
    that has 'text'; the condition of lines 62-64 accepts every such reply. *)
Theorem first_text_ok_iff (result t : pyvalue) :
  (first_text result = Ok t <->
   exists d cd cs ctd pd ps,
     result = VDict d
     /\ dict_get "candidates" d = Some (VList (VDict cd :: cs))
     /\ dict_get "content" cd = Some (VDict ctd)
     /\ dict_get "parts" ctd = Some (VList (VDict pd :: ps))
     /\ dict_get "text" pd = Some t)
  /\ (first_text result = Ok t -> has_text_path result = Ok true).
Proof.
  assert (Hshape :
    first_text result = Ok t ->
    exists d cd cs ctd pd ps,
      result = VDict d
      /\ dict_get "candidates" d = Some (VList (VDict cd :: cs))
      /\ dict_get "content" cd = Some (VDict ctd)
      /\ dict_get "parts" ctd = Some (VList (VDict pd :: ps))
      /\ dict_get "text" pd = Some t).
  { unfold first_text, obind, getitem_str, getitem_0. intros H.
    split_matches.
    repeat match goal with
           | E : Ok _ = Ok _ |- _ => inversion E; clear E
           end; subst.
    do 6 eexists. split; [reflexivity |]. repeat (split; [eassumption |]).
    assumption. }
  split; [split; [exact Hshape |] |].
  - intros (d & cd & cs & ctd & pd & ps & -> & Hc & Hct & Hp & Ht).
    apply (has_text_path_accepts d cd cs ctd pd ps t Hc Hct Hp Ht).
  - intros H.
    destruct (Hshape H) as (d & cd & cs & ctd & pd & ps & -> & Hc & Hct & Hp & Ht).
    apply (has_text_path_accepts d cd cs ctd pd ps t Hc Hct Hp Ht).
Qed.

Lemma first_text_ok_iff_witness :
  first_text sample_result = Ok (VStr "hi there")
  /\ has_text_path sample_result = Ok true.
Proof.
  destruct (first_text_ok_iff sample_result (VStr "hi there")) as [[_ Hback] Hcond].
  assert (H : first_text sample_result = Ok (VStr "hi there")).
  { apply Hback. repeat eexists; reflexivity. }
  split; [exact H | exact (Hcond H)].
Defined.

(** What the operations on values can raise. *)
Lemma py_in_raises k v e : py_in k v = Raise e -> exn_cls e = TypeError.
Proof. destruct v; cbn; intros H; inversion H; reflexivity. Qed.

Lemma py_len_raises v e : py_len v = Raise e -> exn_cls e = TypeError.
Proof. destruct v; cbn; intros H; inversion H; reflexivity. Qed.

Lemma getitem_str_raises v k e :
  getitem_str v k = Raise e -> exn_cls e = KeyError \/ exn_cls e = TypeError.
Proof.
  destruct v; cbn; try (intros H; inversion H; auto; fail).
  destruct (dict_get k d); intros H; inversion H; auto.
Qed.

(** [v[0]] raises IndexError only on an empty list or string. *)
Lemma getitem_0_raises v e :
  getitem_0 v = Raise e ->
  exn_cls e = KeyError \/ exn_cls e = TypeError
  \/ (exn_cls e = IndexError /\ py_len v = Ok 0).
Proof.
  destruct v; cbn; try (intros H; inversion H; auto; fail).
  - destruct s; intros H; inversion H; auto.
  - destruct l; intros H; inversion H; auto.
Qed.

(** Case analysis on the calls of a condition, outermost call first. *)
Ltac split_calls :=
  repeat match goal with
         | |- context [match ?x with _ => _ end] =>
             lazymatch x with
             | context [match _ with _ => _ end] => fail
             | _ => destruct x eqn:?
             end;
             cbn beta iota
         end.

Ltac raised_class :=
  match goal with
  | E : py_in _ _ = Raise _ |- _ =>
      rewrite (py_in_raises _ _ _ E)
  | E : py_len _ = Raise _ |- _ =>
      rewrite (py_len_raises _ _ E)
  | E : getitem_str _ _ = Raise _ |- _ =>
      let H := fresh "Hcls" in
      destruct (getitem_str_raises _ _ _ E) as [H | H]; rewrite H
  | E : getitem_0 ?v = Raise _, L : py_len ?v = Ok ?n, P : (0 <? ?n) = true |- _ =>
      let H := fresh "Hcls" in
      let Hz := fresh "Hzero" in
      destruct (getitem_0_raises _ _ E) as [H | [H | [H Hz]]];
      [ rewrite H | rewrite H
      | rewrite Hz in L; inversion L; subst; discriminate P ]
  end.

(** X2. The two length checks of the condition guard both [[0]] lookups: on
    no decoded reply does the condition raise IndexError, and once it holds
    the unwrapping can only fail with a KeyError or a TypeError. *)
Theorem length_checks_guard_indexing (result : pyvalue) :
  (forall e, has_text_path result = Raise e -> exn_cls e <> IndexError)
  /\ (has_text_path result = Ok true ->
      forall e, first_text result = Raise e ->
                exn_cls e = KeyError \/ exn_cls e = TypeError).
Proof.
  split.
  - intros e. unfold has_text_path, and_then, obind. cbn beta iota.
    split_calls; intros Hr; try discriminate Hr;
      inversion Hr; subst; raised_class; discriminate.
  - intros Hc e. revert Hc.
    unfold has_text_path, first_text, and_then, obind. cbn beta iota.
    split_calls; intros Hc Hr; try discriminate Hc; try discriminate Hr;
      try injection Hc as Hc; inversion Hr; subst; raised_class; auto.
Qed.

Lemma length_checks_guard_indexing_witness :
  exn_cls (Exn KeyError "'text'") = KeyError
  \/ exn_cls (Exn KeyError "'text'") = TypeError.
Proof.
  refine (proj2 (length_checks_guard_indexing
                   (VDict [("candidates",
                            VList [VDict [("content",
                                           VDict [("parts", VList [VDict []])])]])]))
            _ (Exn KeyError "'text'") _);
    reflexivity.
Defined.


(** ** The runs of [get_gemini_response] *)

(** X4. With the key set, a reply with a 4xx or 5xx status is reported with
    the connection-error string carrying the HTTPError's text; the call is
    made, one line is printed, and the body of the reply is not consulted. *)
Theorem error_status_reported_as_connection_error vendor g prompt r :
  key_is_set (GEMINI_API_KEY g) = true ->
  vendor (vendor_call g prompt) = Ok r ->
  400 <= status_code r < 600 ->
  run_get vendor g prompt =
    (Ok (VStr ("An error occurred while connecting to the AI service: "
               ++ http_error_msg r)%string),
     {| st_globals := g;
        st_trace :=
          [EvPost (vendor_call g prompt);
           EvPrint (Text ("Error connecting to Gemini API: "
                          ++ http_error_msg r)%string)] |}).
Proof.
  intros Hk Hv [Hlo Hhi]. unfold run_get.
  rewrite (get_key_set vendor prompt (Store g []) Hk). cbn [st_globals].
  rewrite Hv.
  assert (Hs : error_status r = true).
  { unfold error_status. apply andb_true_iff. split; lia. }
  rewrite Hs, handle_eq, after_after. reflexivity.
Qed.

Lemma error_status_reported_as_connection_error_witness :
  fst (run_get
         (fun _ => Ok {| status_code := 503;
                         http_error_msg := "503 Server Error";
                         json := Ok sample_result |})
         sample_globals (VStr "hello"))
  = Ok (VStr "An error occurred while connecting to the AI service: 503 Server Error").
Proof.
  rewrite (error_status_reported_as_connection_error
             (fun _ => Ok {| status_code := 503;
                             http_error_msg := "503 Server Error";
                             json := Ok sample_result |})
             sample_globals (VStr "hello")
             {| status_code := 503; http_error_msg := "503 Server Error";
                json := Ok sample_result |});
    [reflexivity | reflexivity | reflexivity | cbn; lia].
Defined.

(** X5. The except clauses are tried in order: of the exceptions raised in
    the try, exactly those that are a json.JSONDecodeError and not a
    RequestException give the decode string; one that is both (requests' own
    decode error) gives the connection-error string. *)
Theorem decode_string_iff vendor g prompt e :
  key_is_set (GEMINI_API_KEY g) = true ->
  raised_in_try vendor (vendor_call g prompt) e ->
  (fst (run_get vendor g prompt) = Ok (VStr msg_decode) <->
   is_RequestException (exn_cls e) = false
   /\ is_JSONDecodeError (exn_cls e) = true)
  /\ (is_RequestException (exn_cls e) = true ->
      fst (run_get vendor g prompt) = Ok (VStr (msg_connect ++ exn_str e)%string)).
Proof.
  intros Hk H. unfold run_get.
  destruct (get_raised (s := Store g []) Hk H) as [l ->]. cbn [fst].
  unfold handle_text.
  destruct (is_RequestException (exn_cls e));
    [| destruct (is_JSONDecodeError (exn_cls e)) ].
  - split; [| reflexivity]. split; [| intros [Hf _]; discriminate Hf].
    intros Heq. exfalso. cbv in Heq. inversion Heq.
  - split; [| discriminate]. split; auto.
  - split; [| discriminate]. split; [| intros [_ Hf]; discriminate Hf].
    intros Heq. exfalso. cbv in Heq. inversion Heq.
Qed.

Lemma decode_string_iff_witness :
  fst (run_get
         (fun _ => Ok {| status_code := 200; http_error_msg := "OK";
                         json := Raise (Exn RequestsJSONDecodeError
                                          "Expecting value") |})
         sample_globals (VStr "hello"))
  = Ok (VStr "An error occurred while connecting to the AI service: Expecting value").
Proof.
  refine (proj2 (decode_string_iff
                   (fun _ => Ok {| status_code := 200; http_error_msg := "OK";
                                   json := Raise (Exn RequestsJSONDecodeError
                                                    "Expecting value") |})
                   sample_globals (VStr "hello")
                   (Exn RequestsJSONDecodeError "Expecting value") _ _) _).
  - reflexivity.
  - eapply json_raises; reflexivity.
  - reflexivity.
Defined.

(** X3. With the key set, a reply without error status that decodes to a
    falsy value (null, false, 0, the empty string, list or object) fails the
    condition at its first conjunct: nothing is looked up in it, nothing is
    raised, and the fallback string is returned after one debug line. *)
Theorem falsy_reply_falls_back vendor g prompt r result :
  key_is_set (GEMINI_API_KEY g) = true ->
  vendor (vendor_call g prompt) = Ok r ->
  error_status r = false ->
  json r = Ok result ->
  truthy result = false ->
  has_text_path result = Ok false
  /\ run_get vendor g prompt =
       (Ok (VStr "Sorry, I couldn't get a valid response from the AI. Please try again."),
        {| st_globals := g;
           st_trace :=
             [EvPost (vendor_call g prompt);
              EvPrint (TextValue "DEBUG: Unexpected API response structure: "
                         result)] |}).
Proof.
  intros Hk Hv Hs Hj Ht.
  assert (Hp : has_text_path result = Ok false)
    by (unfold has_text_path, and_then, obind; now rewrite Ht).
  split; [exact Hp |].
  assert (Hu : unexpected_shape vendor (vendor_call g prompt) result)
    by (eapply shape_rejected; eassumption).
  unfold run_get. now rewrite (get_unexpected_shape (s := Store g []) Hk Hu).
Qed.

Lemma falsy_reply_falls_back_witness :
  fst (run_get
         (fun _ => Ok {| status_code := 200; http_error_msg := "OK";
                         json := Ok (VDict []) |})
         sample_globals (VStr "hello"))
  = Ok (VStr "Sorry, I couldn't get a valid response from the AI. Please try again.").
Proof.
  rewrite (proj2 (falsy_reply_falls_back
                    (fun _ => Ok {| status_code := 200; http_error_msg := "OK";
                                    json := Ok (VDict []) |})
                    sample_globals (VStr "hello")
                    {| status_code := 200; http_error_msg := "OK";
                       json := Ok (VDict []) |}
                    (VDict []) eq_refl eq_refl eq_refl eq_refl eq_refl)).
  reflexivity.
Defined.

(** ** The runs of [chat] *)

(** X7. A reply of the handler has status 200 or 400: 200 with the single
    key 'response' exactly when a message was forwarded, 400 with the single
    key 'error' and no effect at all otherwise. *)
Theorem chat_reply_statuses vendor g req r s' :
  serve vendor g req = (Ok r, s') ->
  (status r = 200
   /\ (exists m, message_of req = Some m)
   /\ exists v, body r = VDict [("response", v)])
  \/ (status r = 400
      /\ message_of req = None
      /\ (exists text, body r = VDict [("error", VStr text)])
      /\ s' = {| st_globals := g; st_trace := [] |}).
Proof.
  intros H. destruct (message_of req) as [m |] eqn:Hm.
  - left. rewrite (serve_forwarded vendor g req m Hm) in H.
    destruct (str_encodes m); [| discriminate H].
    destruct (fst (run_get vendor g m)) as [v | e]; [| discriminate H].
    destruct (str_encodes v); [| discriminate H].
    inversion H. cbn. eauto.
  - right. unfold message_of in Hm. unfold serve in H.
    destruct (is_json req) eqn:Hj.
    + destruct (decoded req) as [v |] eqn:Hd.
      2:{ destruct (chat_undecodable (vendor := vendor) (s := Store g []) Hj Hd)
            as (e' & He & _). rewrite He in H. discriminate H. }
      destruct v;
        try (rewrite (chat_not_object Hj Hd) in H by discriminate;
             discriminate H).
      destruct (dict_get "message" d) as [m |] eqn:Hg.
      * destruct (truthy m) eqn:Ht; [discriminate Hm |].
        rewrite (chat_falsy_message d Hj Hd Hg Ht) in H.
        inversion H. cbn. eauto 6.
      * rewrite (chat_no_message d Hj Hd Hg) in H.
        inversion H. cbn. eauto 6.
    + rewrite (chat_not_json Hj) in H. inversion H. cbn. eauto 6.
Qed.

Lemma chat_reply_statuses_witness :
  (status reply_not_json = 200
   /\ (exists m, message_of {| is_json := false; decoded := None;
                              loads_error := malformed |} = Some m)
   /\ exists v, body reply_not_json = VDict [("response", v)])
  \/ (status reply_not_json = 400
      /\ message_of {| is_json := false; decoded := None;
                       loads_error := malformed |} = None
      /\ (exists text, body reply_not_json = VDict [("error", VStr text)])
      /\ {| st_globals := sample_globals; st_trace := [] |}
         = {| st_globals := sample_globals; st_trace := [] |}).
Proof.
  apply (chat_reply_statuses sample_vendor sample_globals
           {| is_json := false; decoded := None; loads_error := malformed |}).
  reflexivity.
Defined.

(** X8. On a forwarded message that standard output can encode, the handler
    adds nothing to [get_gemini_response] but two calls of print: when the
    value it returned can be encoded too, the reply carries that value, and
    the effects are the print of the message, its effects, and the print of
    the value. *)
Theorem chat_wraps_get_gemini_response vendor g req m :
  message_of req = Some m ->
  str_encodes m = true ->
  exists v,
    fst (run_get vendor g m) = Ok v
    /\ (str_encodes v = true ->
        serve vendor g req =
          (Ok {| status := 200; body := VDict [("response", v)] |},
           {| st_globals := g;
              st_trace :=
                EvPrint (TextStr "Received message from frontend: " m)
                :: st_trace (snd (run_get vendor g m))
                ++ [EvPrint (TextStr "Sending response to frontend: " v)] |})).
Proof.
  intros Hm Henc. rewrite (serve_forwarded vendor g req m Hm), Henc.
  unfold run_get.
  destruct (get_total vendor m (Store g [])) as (v & evs & -> & _).
  exists v. split; [reflexivity |]. cbn [fst]. now intros ->.
Qed.

Lemma chat_wraps_get_gemini_response_witness :
  exists v,
    fst (run_get sample_vendor sample_globals (VStr "hello")) = Ok v
    /\ (str_encodes v = true ->
        serve sample_vendor sample_globals sample_request =
          (Ok {| status := 200; body := VDict [("response", v)] |},
           {| st_globals := sample_globals;
              st_trace :=
                EvPrint (TextStr "Received message from frontend: " (VStr "hello"))
                :: st_trace (snd (run_get sample_vendor sample_globals (VStr "hello")))
                ++ [EvPrint (TextStr "Sending response to frontend: " v)] |})).
Proof.
  apply (chat_wraps_get_gemini_response sample_vendor sample_globals
           sample_request (VStr "hello")); reflexivity.
Defined.

(** X9. With GEMINI_API_KEY unset or empty, a forwarded message that
    standard output can encode is answered 200 with the key-missing string
    whatever the vendor would do: print is called three times and
    [requests.post] is not called. *)
Theorem chat_without_key vendor g req m :
  message_of req = Some m ->
  str_encodes m = true ->
  GEMINI_API_KEY g = None \/ GEMINI_API_KEY g = Some EmptyString ->
  serve vendor g req =
    (Ok {| status := 200;
           body := VDict [("response",
                           VStr "Error: Backend configuration issue. Gemini API Key is missing.")] |},
     {| st_globals := g;
        st_trace :=
          [EvPrint (TextStr "Received message from frontend: " m);
           EvPrint (Text "Error: Gemini API Key environment variable is not set on the server.");
           EvPrint (TextStr "Sending response to frontend: "
                      (VStr "Error: Backend configuration issue. Gemini API Key is missing."))] |}).
Proof.
  intros Hm Henc Hk.
  assert (Hset : key_is_set (GEMINI_API_KEY (st_globals (Store g []))) = false)
    by (cbn; destruct Hk as [-> | ->]; reflexivity).
  rewrite (serve_forwarded vendor g req m Hm), Henc. unfold run_get.
  rewrite (get_key_missing vendor m (Store g []) Hset). reflexivity.
Qed.

Lemma chat_without_key_witness :
  fst (serve sample_vendor (module_globals (fun _ => Some EmptyString))
         sample_request)
  = Ok {| status := 200;
          body := VDict [("response",
                          VStr "Error: Backend configuration issue. Gemini API Key is missing.")] |}.
Proof.
  rewrite (chat_without_key sample_vendor
             (module_globals (fun _ => Some EmptyString))
             sample_request (VStr "hello"));
    [reflexivity | reflexivity | reflexivity | right; reflexivity].
Defined.



(** X11. [get_gemini_response] calls print at most once, and not at all
    exactly when the key is set and the reply unwraps: every other return is
    accompanied by one call of print. *)
Theorem get_gemini_response_prints vendor g prompt :
  (List.length (prints (st_trace (snd (run_get vendor g prompt)))) <= 1)%nat
  /\ (prints (st_trace (snd (run_get vendor g prompt))) = [] <->
      key_is_set (GEMINI_API_KEY g) = true
      /\ exists t, unwraps_to vendor (vendor_call g prompt) t).
Proof.
  unfold run_get.
  destruct (key_is_set (GEMINI_API_KEY g)) eqn:Hk.
  - assert (Hk' : key_is_set (GEMINI_API_KEY (st_globals (Store g []))) = true)
      by exact Hk.
    destruct (exchange_cases vendor (vendor_call g prompt))
      as [[e H] | [[result H] | [t H]]].
    + destruct (get_raised Hk' H) as [l ->]. cbn. split; [lia |].
      split; [discriminate |].
      intros [_ [t Ht]]. exfalso.
      destruct Ht as [r result t Hv Hs Hj Hp Ht].
      destruct H as [e Hv' | r' Hv' Hs' | r' e Hv' Hs' Hj' | r' res' e Hv' Hs' Hj' Hp'
                    | r' res' e Hv' Hs' Hj' Hp' Ht'];
        rewrite Hv in Hv'; inversion Hv'; subst; congruence.
    + rewrite (get_unexpected_shape Hk' H). cbn. split; [lia |].
      split; [discriminate |].
      intros [_ [t Ht]]. exfalso.
      destruct Ht as [r res t Hv Hs Hj Hp Ht].
      destruct H as [r' res' Hv' Hs' Hj' Hp'].
      rewrite Hv in Hv'; inversion Hv'; subst; congruence.
    + rewrite (get_unwraps Hk' H). cbn. split; [lia |].
      split; eauto.
  - rewrite (get_key_missing vendor prompt (Store g []) Hk). cbn.
    split; [lia |]. split; [discriminate | intros [Hf _]; discriminate Hf].
Qed.

Lemma get_gemini_response_prints_witness :
  prints (st_trace (snd (run_get sample_vendor sample_globals (VStr "hello")))) = [].
Proof.
  apply (proj2 (get_gemini_response_prints sample_vendor sample_globals
                  (VStr "hello"))).
  split; [reflexivity |].
  exists (VStr "hi there"). eapply text_found; reflexivity.
Defined.
